(** * Verification of the project-feasibility prediction pipeline

    Shallow embedding of [app/model.py], [app/main.py] and [app/visualize.py]:
    feature-vector assembly in the three request handlers, the prediction
    service over opaque pre-trained models, the label lookup of the
    feasibility handler and the chart files written by the visualisation
    module.

    Numbers of the Python lists (floats and ints) are rationals [Q]; the
    [int] form fields are [Z] values injected with [inject_Z], as Python
    keeps them in the same list as the floats. *)

From Stdlib Require Import QArith Qminmax Lqa Sorted.
From stdpp Require Import base gmap strings list fin_maps.

Open Scope string_scope.

(** ** Python exceptions and the error-and-state monad *)

Inductive exn :=
| AttributeError
| ValueError
| IndexError
| KeyError (k : Z).

Inductive result (A : Type) :=
| Ok (a : A)
| Err (e : exn).
Arguments Ok {A} a.
Arguments Err {A} e.

(** ** model.py : the declared column orders *)

Definition FEATURE_NAMES : list string :=
  [ "Estimated_Cost_USD";
    "Time_Estimate_Days";
    "Resource_Allocation_Score";
    "Risk_Assessment_Score";
    "Environmental_Impact_Score";
    "Historical_Cost_Deviation_%";
    "Stakeholder_Priority_Score";
    "Scope_Complexity_Numeric";
    "Project_Type_Building";
    "Project_Type_Power Plant";
    "Project_Type_Road";
    "Project_Type_Water Infra" ].

Definition COST_FEATURE_NAMES : list string :=
  [ "Scope_Complexity_Numeric";
    "Resource_Allocation_Score";
    "Risk_Assessment_Score";
    "Environmental_Impact_Score";
    "Historical_Cost_Deviation_%";
    "Stakeholder_Priority_Score";
    "Project_Type_Building";
    "Project_Type_Power Plant";
    "Project_Type_Road";
    "Project_Type_Water Infra" ].

Definition TIME_FEATURE_NAMES : list string :=
  [ "Resource_Allocation_Score";
    "Risk_Assessment_Score";
    "Environmental_Impact_Score";
    "Historical_Cost_Deviation_%";
    "Stakeholder_Priority_Score";
    "Scope_Complexity_Numeric";
    "Project_Type_Building";
    "Project_Type_Power Plant";
    "Project_Type_Road";
    "Project_Type_Water Infra" ].

(** ** main.py : form fields and one-hot encoding *)

(** The form of [/predict]: every field of the Input Record. *)
Record FeasibilityForm := {
  Project_Type : string;
  Estimated_Cost_USD : Q;
  Time_Estimate_Days : Z;
  Resource_Allocation_Score : Q;
  Risk_Assessment_Score : Q;
  Environmental_Impact_Score : Q;
  Historical_Cost_Deviation_ : Q;
  Stakeholder_Priority_Score : Q;
  Scope_Complexity_Numeric : Z
}.

(** The form of [/predict-cost] and [/predict-time] (no cost, no time). *)
Record CostTimeForm := {
  ct_Project_Type : string;
  ct_Scope_Complexity_Numeric : Z;
  ct_Resource_Allocation_Score : Q;
  ct_Risk_Assessment_Score : Q;
  ct_Environmental_Impact_Score : Q;
  ct_Historical_Cost_Deviation_ : Q;
  ct_Stakeholder_Priority_Score : Q
}.

(** [PROJECT_TYPES_ENCODED]; "Bridge" is the dropped reference category. *)
Definition PROJECT_TYPES_ENCODED : list string :=
  ["Building"; "Power Plant"; "Road"; "Water Infra"].

Definition FEATURES : list string := FEATURE_NAMES.

(** [[1 if pt == Project_Type else 0 for pt in PROJECT_TYPES_ENCODED]] *)
Definition project_type_encoded (Project_Type : string) : list Q :=
  map (fun pt => if String.eqb pt Project_Type then 1%Q else 0%Q)
      PROJECT_TYPES_ENCODED.

(** [input_data] of [predict]. *)
Definition predict_input_data (f : FeasibilityForm) : list Q :=
  [ Estimated_Cost_USD f;
    inject_Z (Time_Estimate_Days f);
    Resource_Allocation_Score f;
    Risk_Assessment_Score f;
    Environmental_Impact_Score f;
    Historical_Cost_Deviation_ f;
    Stakeholder_Priority_Score f;
    inject_Z (Scope_Complexity_Numeric f) ]
  ++ project_type_encoded (Project_Type f).

(** [input_data] of [predict_cost_route]. *)
Definition cost_input_data (f : CostTimeForm) : list Q :=
  [ inject_Z (ct_Scope_Complexity_Numeric f);
    ct_Resource_Allocation_Score f;
    ct_Risk_Assessment_Score f;
    ct_Environmental_Impact_Score f;
    ct_Historical_Cost_Deviation_ f;
    ct_Stakeholder_Priority_Score f ]
  ++ project_type_encoded (ct_Project_Type f).

(** [input_data] of [predict_time_route]. *)
Definition time_input_data (f : CostTimeForm) : list Q :=
  [ ct_Resource_Allocation_Score f;
    ct_Risk_Assessment_Score f;
    ct_Environmental_Impact_Score f;
    ct_Historical_Cost_Deviation_ f;
    ct_Stakeholder_Priority_Score f;
    inject_Z (ct_Scope_Complexity_Numeric f) ]
  ++ project_type_encoded (ct_Project_Type f).

(** The indicator block of an assembled vector: its last four entries. *)
Definition indicators (v : list Q) : list Q := drop (length v - 4) v.

(** Number of indicators set to 1. *)
Definition count_ones (l : list Q) : nat :=
  length (filter (fun q => Qeq_bool q 1) l).

(** ** Python built-ins used on numbers *)

(** [max(a, b)]: the first argument unless the second is strictly larger. *)
Definition py_max2 (a b : Q) : Q := if Qlt_le_dec a b then b else a.

(** [max(xs)] over a list: [ValueError] on an empty list. *)
Definition py_max (xs : list Q) : result Q :=
  match xs with
  | [] => Err ValueError
  | x :: rest => Ok (fold_left py_max2 rest x)
  end.

(** [xs[i]] for a non-negative index. *)
Definition py_index {A} (xs : list A) (i : nat) : result A :=
  match xs !! i with Some x => Ok x | None => Err IndexError end.

(** ** Python floats as the charts receive them *)

(** A Python [float]: a finite value (rounding not modelled), the two
    infinities, or NaN. A Python [int] is a finite value. *)
Inductive pyfloat :=
| PNum (q : Q)
| PInf
| NInf
| PNaN.

(** [a < b]: every comparison with NaN is [False]. *)
Definition pf_lt (a b : pyfloat) : bool :=
  match a, b with
  | PNum x, PNum y => if Qlt_le_dec x y then true else false
  | PNum _, PInf | NInf, PNum _ | NInf, PInf => true
  | _, _ => false
  end.

(** [v / m] for a positive [int] literal [m]. *)
Definition pf_div (v : pyfloat) (m : Q) : pyfloat :=
  match v with PNum x => PNum (x / m) | _ => v end.

(** [v * m] for a positive [int] literal [m]. *)
Definition pf_mul (v : pyfloat) (m : Q) : pyfloat :=
  match v with PNum x => PNum (x * m) | _ => v end.

(** [max(a, b)]: [b] only when [b > a] holds, so [max(nan, b)] is nan. *)
Definition pf_max2 (a b : pyfloat) : pyfloat := if pf_lt a b then b else a.

(** [min(a, b)]: [b] only when [b < a] holds, so [min(nan, b)] is nan. *)
Definition pf_min2 (a b : pyfloat) : pyfloat := if pf_lt b a then b else a.


(** ** Opaque pre-trained models (joblib artifacts) *)

(** A one-row [pd.DataFrame]: column name and value. *)
Definition frame := list (string * Q).

(** [pd.DataFrame([input_data], columns=cols)]: [ValueError] when the row
    and the column list differ in length. *)
Definition make_frame (cols : list string) (input_data : list Q) : result frame :=
  if Nat.eqb (length input_data) (length cols)
  then Ok (zip cols input_data) else Err ValueError.

(** A classifier artifact; an attribute it lacks is [None]. Its methods
    may raise (sklearn rejects, e.g., infinite or too large inputs with
    [ValueError]). *)
Record Classifier := {
  clf_predict : frame -> result Z;
  clf_predict_proba : option (frame -> result (list Q));
  clf_feature_importances : option (list Q)
}.

Record Regressor := {
  reg_predict : frame -> result Q
}.

(** Module-level globals: the three models of model.py and the [model]
    loaded separately by main.py. *)
Record Store := {
  feasibility_model : Classifier;
  cost_model : Regressor;
  time_model : Regressor;
  model : Classifier
}.

(** ** Chart images and the file system *)

(** What a chart file holds: the data the chart is drawn from. *)
Inductive Image :=
| FeatureImportanceChart (bars : list (string * Q))
| RadarChart (normalized : list pyfloat)
| GaugeChart (normalized_score : pyfloat) (result : string)
| DistributionChart (normalized : list pyfloat).

(** The process state: loaded models and files (paths relative to the
    project directory). *)
Record World := {
  store : Store;
  files : gmap string Image
}.

(** ** The error-and-state monad: a raised exception keeps the effects
    already performed. *)

Definition M (A : Type) := World -> result A * World.

Global Instance M_ret : MRet M := fun A a w => (Ok a, w).
Global Instance M_bind : MBind M := fun A B k c w =>
  match c w with
  | (Ok a, w') => k a w'
  | (Err e, w') => (Err e, w')
  end.

Definition lift {A} (r : result A) : M A := fun w => (r, w).

Definition raise {A} (e : exn) : M A := fun w => (Err e, w).

Definition gets {A} (f : Store -> A) : M A := fun w => (Ok (f (store w)), w).

(** Reading an attribute of an object: [AttributeError] when it is absent. *)
Definition getattr {A} (o : option A) : M A :=
  match o with Some a => mret a | None => raise AttributeError end.

(** [try: c except AttributeError: return v]. *)
Definition catch_attribute_error {A} (c : M A) (v : A) : M A := fun w =>
  match c w with
  | (Err AttributeError, w') => (Ok v, w')
  | r => r
  end.

(** [plt.savefig(path)]: create or overwrite the file. *)
Definition savefig (path : string) (img : Image) : M unit := fun w =>
  (Ok tt, {| store := store w; files := <[path := img]> (files w) |}).

(** ** model.py : the prediction service *)

Definition predict_feasibility (input_data : list Q) : M Z :=
  df ← lift (make_frame FEATURE_NAMES input_data);
  m ← gets feasibility_model;
  lift (clf_predict m df).

Definition get_prediction_confidence (input_data : list Q) : M Q :=
  catch_attribute_error
    (df ← lift (make_frame FEATURE_NAMES input_data);
     m ← gets feasibility_model;
     predict_proba ← getattr (clf_predict_proba m);
     probas ← lift (predict_proba df);
     lift (py_max probas))
    0.85%Q.

Definition predict_cost (input_data : list Q) : M Q :=
  df ← lift (make_frame COST_FEATURE_NAMES input_data);
  m ← gets cost_model;
  lift (reg_predict m df).

Definition predict_time (input_data : list Q) : M Q :=
  df ← lift (make_frame TIME_FEATURE_NAMES input_data);
  m ← gets time_model;
  lift (reg_predict m df).

(** ** visualize.py : the four charts *)

Definition feature_importance_png := "static/feature_importance.png".
Definition radar_chart_png := "static/radar_chart.png".
Definition gauge_chart_png := "static/gauge_chart.png".
Definition distribution_chart_png := "static/distribution_chart.png".

(** Insertion of index [i] into a list of indices sorted by [key]; an
    index goes after those of equal key. *)
Fixpoint insert_by_key (key : nat -> Q) (i : nat) (l : list nat) : list nat :=
  match l with
  | [] => [i]
  | j :: l' => if Qlt_le_dec (key i) (key j) then i :: l
               else j :: insert_by_key key i l'
  end.

(** [np.argsort(importance)], ties in index order. *)
Definition argsort (importance : list Q) : list nat :=
  fold_left (fun acc i => insert_by_key (fun k => nth k importance 0%Q) i acc)
            (seq 0 (length importance)) [].

Fixpoint map_result {A B} (f : A -> result B) (l : list A) : result (list B) :=
  match l with
  | [] => Ok []
  | x :: l' =>
      match f x with
      | Err e => Err e
      | Ok y => match map_result f l' with
                | Err e => Err e
                | Ok ys => Ok (y :: ys)
                end
      end
  end.

Definition generate_feature_importance (model : Classifier)
    (feature_names : list string) : M unit :=
  importance ← getattr (clf_feature_importances model);
  let sorted_idx := argsort importance in
  sorted_features ← lift (map_result (py_index feature_names) sorted_idx);
  let sorted_importance := map (fun i => nth i importance 0%Q) sorted_idx in
  savefig feature_importance_png
    (FeatureImportanceChart (zip sorted_features sorted_importance)).

Definition radar_max_vals : list Q := [1000000; 365; 10; 10; 10; 50; 10; 3]%Q.

(** [ax.plot(angles, normalized)] needs 8 + 1 points on both axes. *)
Definition generate_radar_chart (input_data : list pyfloat)
    (feature_names : list string) : M unit :=
  let normalized :=
    map (fun '(v, m) => pf_min2 (pf_div v m) (PNum 1))
        (zip input_data radar_max_vals) in
  if Nat.eqb (length normalized) 8
  then savefig radar_chart_png (RadarChart normalized)
  else raise ValueError.

Definition generate_gauge_chart (risk_score : pyfloat) (result : string) : M unit :=
  let normalized_score :=
    pf_min2 (pf_max2 (pf_div risk_score 10) (PNum 0)) (PNum 1) in
  savefig gauge_chart_png (GaugeChart normalized_score result).

Definition distribution_max_vals : list Q := [100000; 100; 10; 10; 10; 20; 10; 3]%Q.

(** [ax.bar(labels, normalized)] broadcasts a single height over the 8
    labels and rejects any other length mismatch. *)
Definition generate_distribution_chart (input_data : list pyfloat)
    (feature_names : list string) : M unit :=
  let normalized :=
    map (fun '(v, m) => pf_min2 (pf_mul (pf_div v m) 10) (PNum 10))
        (zip input_data distribution_max_vals) in
  if Nat.eqb (length normalized) 8 || Nat.eqb (length normalized) 1
  then savefig distribution_chart_png (DistributionChart normalized)
  else raise ValueError.

Definition generate_all_visualizations (model : Classifier)
    (feature_names : list string) (input_data : list pyfloat) (result : string)
    : M unit :=
  generate_feature_importance model feature_names;;
  generate_radar_chart input_data feature_names;;
  risk ← lift (py_index input_data 3);
  generate_gauge_chart risk result;;
  generate_distribution_chart input_data feature_names.

(** ** main.py : the request handlers *)

Definition label_map : gmap Z string :=
  list_to_map [(0%Z, "Not Feasible"); (1%Z, "Feasible"); (2%Z, "Borderline")].

(** [label_map[result]]. *)
Definition label_lookup (k : Z) : result string :=
  match label_map !! k with Some s => Ok s | None => Err (KeyError k) end.

(** The parts of the rendered page computed from the prediction. *)
Record Response := {
  resp_result : string;
  resp_confidence : Q
}.

(** The charts receive the same list; [map PNum] only views its finite
    entries as Python floats. *)
Definition predict (f : FeasibilityForm) : M Response :=
  let input_data := predict_input_data f in
  result ← predict_feasibility input_data;
  confidence ← get_prediction_confidence input_data;
  result_label ← lift (label_lookup result);
  m ← gets model;
  generate_all_visualizations m FEATURES (map PNum input_data) result_label;;
  mret {| resp_result := result_label; resp_confidence := confidence |}.

Definition predict_cost_route (f : CostTimeForm) : M Q :=
  predict_cost (cost_input_data f).

Definition predict_time_route (f : CostTimeForm) : M Q :=
  predict_time (time_input_data f).

(** ** Sequences of calls into the prediction service *)

Inductive ServiceCall :=
| CallFeasibility (input_data : list Q)
| CallConfidence (input_data : list Q)
| CallCost (input_data : list Q)
| CallTime (input_data : list Q).

Inductive Answer :=
| AClass (k : Z)
| AValue (q : Q).

Definition map_M {A B} (f : A -> B) (c : M A) : M B := a ← c; mret (f a).

Definition run_call (c : ServiceCall) : M Answer :=
  match c with
  | CallFeasibility x => map_M AClass (predict_feasibility x)
  | CallConfidence x => map_M AValue (get_prediction_confidence x)
  | CallCost x => map_M AValue (predict_cost x)
  | CallTime x => map_M AValue (predict_time x)
  end.

(** Calls made one after the other (e.g. by successive requests); a call
    that raises does not stop the later ones. *)
Fixpoint run_calls (cs : list ServiceCall) (w : World)
    : list (result Answer) * World :=
  match cs with
  | [] => ([], w)
  | c :: cs' =>
      let '(r, w1) := run_call c w in
      let '(rs, w2) := run_calls cs' w1 in
      (r :: rs, w2)
  end.

(** ** Concrete data for the examples and witnesses *)

Definition with_project_type (s : string) (f : FeasibilityForm) : FeasibilityForm := {|
  Project_Type := s;
  Estimated_Cost_USD := Estimated_Cost_USD f;
  Time_Estimate_Days := Time_Estimate_Days f;
  Resource_Allocation_Score := Resource_Allocation_Score f;
  Risk_Assessment_Score := Risk_Assessment_Score f;
  Environmental_Impact_Score := Environmental_Impact_Score f;
  Historical_Cost_Deviation_ := Historical_Cost_Deviation_ f;
  Stakeholder_Priority_Score := Stakeholder_Priority_Score f;
  Scope_Complexity_Numeric := Scope_Complexity_Numeric f |}.

Definition ct_with_project_type (s : string) (f : CostTimeForm) : CostTimeForm := {|
  ct_Project_Type := s;
  ct_Scope_Complexity_Numeric := ct_Scope_Complexity_Numeric f;
  ct_Resource_Allocation_Score := ct_Resource_Allocation_Score f;
  ct_Risk_Assessment_Score := ct_Risk_Assessment_Score f;
  ct_Environmental_Impact_Score := ct_Environmental_Impact_Score f;
  ct_Historical_Cost_Deviation_ := ct_Historical_Cost_Deviation_ f;
  ct_Stakeholder_Priority_Score := ct_Stakeholder_Priority_Score f |}.

Definition road_form : FeasibilityForm := {|
  Project_Type := "Road";
  Estimated_Cost_USD := 500000;
  Time_Estimate_Days := 120;
  Resource_Allocation_Score := 7;
  Risk_Assessment_Score := 6;
  Environmental_Impact_Score := 5;
  Historical_Cost_Deviation_ := 10;
  Stakeholder_Priority_Score := 8;
  Scope_Complexity_Numeric := 2 |}.

Definition bridge_form : FeasibilityForm := with_project_type "Bridge" road_form.

Definition bridge_ct_form : CostTimeForm := {|
  ct_Project_Type := "Bridge";
  ct_Scope_Complexity_Numeric := 2;
  ct_Resource_Allocation_Score := 7;
  ct_Risk_Assessment_Score := 6;
  ct_Environmental_Impact_Score := 5;
  ct_Historical_Cost_Deviation_ := 10;
  ct_Stakeholder_Priority_Score := 8 |}.

(** A classifier with every attribute, one without [predict_proba], and
    regressors returning constants. *)
Definition demo_classifier (k : Z) : Classifier := {|
  clf_predict := fun _ => Ok k;
  clf_predict_proba := Some (fun _ => Ok [0.1; 0.7; 0.2]%Q);
  clf_feature_importances :=
    Some [0.2; 0.1; 0.05; 0.15; 0.05; 0.1; 0.05; 0.1; 0.05; 0.05; 0.05; 0.05]%Q
|}.

Definition no_proba_classifier : Classifier := {|
  clf_predict := fun _ => Ok 1%Z;
  clf_predict_proba := None;
  clf_feature_importances := None
|}.

Definition demo_store (k : Z) : Store := {|
  feasibility_model := demo_classifier k;
  cost_model := {| reg_predict := fun _ => Ok 750000%Q |};
  time_model := {| reg_predict := fun _ => Ok 180%Q |};
  model := demo_classifier k
|}.

Definition demo_world (k : Z) : World := {| store := demo_store k; files := ∅ |}.

Definition no_proba_world : World := {|
  store := {| feasibility_model := no_proba_classifier;
              cost_model := {| reg_predict := fun _ => Ok 0%Q |};
              time_model := {| reg_predict := fun _ => Ok 0%Q |};
              model := no_proba_classifier |};
  files := ∅ |}.

(** The model's probability estimates lie in [0, 1]. *)
Definition proba_in_unit (m : Classifier) : Prop :=
  forall f, clf_predict_proba m = Some f ->
  forall df ps, f df = Ok ps -> Forall (fun p => 0 <= p <= 1)%Q ps.

Definition repeated_calls : list ServiceCall :=
  [ CallCost (cost_input_data bridge_ct_form);
    CallTime (time_input_data bridge_ct_form);
    CallCost (cost_input_data bridge_ct_form) ].

(** main.py's own [model] without [feature_importances_]: the charts fail. *)
Definition no_importance_world : World := {|
  store := {| feasibility_model := demo_classifier 1;
              cost_model := {| reg_predict := fun _ => Ok 0%Q |};
              time_model := {| reg_predict := fun _ => Ok 0%Q |};
              model := no_proba_classifier |};
  files := ∅ |}.

(** A classifier whose [predict_proba] returns no probabilities. *)
Definition empty_proba_world : World := {|
  store := {| feasibility_model := {| clf_predict := fun _ => Ok 1%Z;
                                      clf_predict_proba := Some (fun _ => Ok []);
                                      clf_feature_importances := None |};
              cost_model := {| reg_predict := fun _ => Ok 0%Q |};
              time_model := {| reg_predict := fun _ => Ok 0%Q |};
              model := no_proba_classifier |};
  files := ∅ |}.

Definition short_input : list Q := [1; 2; 3]%Q.


(** The road vector with a NaN Risk Assessment Score. *)
Definition nan_risk_input : list pyfloat :=
  [PNum 500000; PNum 120; PNum 7; PNaN; PNum 5; PNum 10; PNum 8; PNum 2;
   PNum 0; PNum 0; PNum 1; PNum 0].

Example predict_road_label :
  fst (predict road_form (demo_world 1)) =
  Ok {| resp_result := "Feasible"; resp_confidence := 0.7%Q |}.
Proof. vm_compute. reflexivity. Qed.

Example predict_road_files :
  dom (files (snd (predict road_form (demo_world 1)))) =
  {[ feature_importance_png; radar_chart_png; gauge_chart_png;
     distribution_chart_png ]}.
Proof. vm_compute. reflexivity. Qed.

(** ** Feature encoding *)

Lemma project_type_encoded_unfold s :
  project_type_encoded s =
  [ if String.eqb "Building" s then 1 else 0;
    if String.eqb "Power Plant" s then 1 else 0;
    if String.eqb "Road" s then 1 else 0;
    if String.eqb "Water Infra" s then 1 else 0 ]%Q.
Proof. reflexivity. Qed.

Lemma indicators_predict f :
  indicators (predict_input_data f) = project_type_encoded (Project_Type f).
Proof. reflexivity. Qed.

Lemma indicators_cost g :
  indicators (cost_input_data g) = project_type_encoded (ct_Project_Type g).
Proof. reflexivity. Qed.

Lemma indicators_time g :
  indicators (time_input_data g) = project_type_encoded (ct_Project_Type g).
Proof. reflexivity. Qed.

(** The names of [PROJECT_TYPES_ENCODED] are pairwise distinct, so at most
    one indicator is set. *)
Lemma project_type_encoded_one_hot s :
  count_ones (project_type_encoded s) <= 1 /\
  Forall (fun q => q = 0%Q \/ q = 1%Q) (project_type_encoded s).
Proof.
  rewrite project_type_encoded_unfold.
  destruct (String.eqb "Building" s) eqn:E1;
  destruct (String.eqb "Power Plant" s) eqn:E2;
  destruct (String.eqb "Road" s) eqn:E3;
  destruct (String.eqb "Water Infra" s) eqn:E4;
  try (apply String.eqb_eq in E1; subst s; cbv in *; congruence);
  try (apply String.eqb_eq in E2; subst s; cbv in *; congruence);
  try (apply String.eqb_eq in E3; subst s; cbv in *; congruence);
  (split; [vm_compute; lia |
          repeat (apply List.Forall_cons; [first [left; reflexivity | right; reflexivity] |]);
          apply List.Forall_nil]).
Qed.

Lemma project_type_encoded_unknown s :
  s ∉ PROJECT_TYPES_ENCODED -> project_type_encoded s = [0; 0; 0; 0]%Q.
Proof.
  intros Hs. rewrite project_type_encoded_unfold.
  repeat match goal with
         | |- context [String.eqb ?a s] =>
             let E := fresh "E" in
             destruct (String.eqb a s) eqn:E;
             [apply String.eqb_eq in E; subst s; exfalso; apply Hs;
              unfold PROJECT_TYPES_ENCODED; set_solver | ]
         end.
  reflexivity.
Qed.

(** C1: for the Road record of the scenario, the feasibility vector of
    [predict] is [500000,120,7,6,5,10,8,2,0,0,1,0]: the eight numeric
    fields in order, then the indicators with only the Road one set. *)
Theorem C1_road_feasibility_vector :
  predict_input_data road_form = [500000;120;7;6;5;10;8;2;0;0;1;0]%Q.
Proof. reflexivity. Qed.

(** C2: the cost vector is complexity, the five scores, the indicators;
    the time vector is the five scores, complexity, the indicators; and
    when the complexity value differs from the resource score the two
    vectors differ. *)
Theorem C2_cost_time_orders_differ (g : CostTimeForm) :
  cost_input_data g =
    ([ inject_Z (ct_Scope_Complexity_Numeric g);
      ct_Resource_Allocation_Score g; ct_Risk_Assessment_Score g;
      ct_Environmental_Impact_Score g; ct_Historical_Cost_Deviation_ g;
      ct_Stakeholder_Priority_Score g ] ++ project_type_encoded (ct_Project_Type g))%list /\
  time_input_data g =
    ([ ct_Resource_Allocation_Score g; ct_Risk_Assessment_Score g;
      ct_Environmental_Impact_Score g; ct_Historical_Cost_Deviation_ g;
      ct_Stakeholder_Priority_Score g;
      inject_Z (ct_Scope_Complexity_Numeric g) ] ++ project_type_encoded (ct_Project_Type g))%list /\
  (~ (inject_Z (ct_Scope_Complexity_Numeric g) == ct_Resource_Allocation_Score g)%Q ->
   cost_input_data g <> time_input_data g).
Proof.
  split; [reflexivity | split; [reflexivity |]].
  intros Hne Heq. unfold cost_input_data, time_input_data in Heq.
  injection Heq as H1 _. apply Hne. rewrite H1. reflexivity.
Qed.

(** C3: every assembled vector has the length of its model's declared
    column list (12, 10, 10), and its indicators are 0 or 1 with at most
    one set to 1. *)
Theorem C3_vector_length_and_one_hot (f : FeasibilityForm) (g : CostTimeForm) :
  length (predict_input_data f) = length FEATURE_NAMES /\
  length (cost_input_data g) = length COST_FEATURE_NAMES /\
  length (time_input_data g) = length TIME_FEATURE_NAMES /\
  length FEATURE_NAMES = 12 /\ length COST_FEATURE_NAMES = 10 /\
  length TIME_FEATURE_NAMES = 10 /\
  (count_ones (indicators (predict_input_data f)) <= 1 /\
   Forall (fun q => q = 0%Q \/ q = 1%Q) (indicators (predict_input_data f))) /\
  (count_ones (indicators (cost_input_data g)) <= 1 /\
   Forall (fun q => q = 0%Q \/ q = 1%Q) (indicators (cost_input_data g))) /\
  (count_ones (indicators (time_input_data g)) <= 1 /\
   Forall (fun q => q = 0%Q \/ q = 1%Q) (indicators (time_input_data g))).
Proof.
  rewrite indicators_predict, indicators_cost, indicators_time.
  split; [reflexivity |]. split; [reflexivity |]. split; [reflexivity |].
  split; [reflexivity |]. split; [reflexivity |]. split; [reflexivity |].
  split; [| split]; apply project_type_encoded_one_hot.
Qed.

(** C4: for the reference category "Bridge" all four indicators are 0 in
    the feasibility, cost and time vectors. *)
Theorem C4_bridge_all_zero (f : FeasibilityForm) (g : CostTimeForm) :
  Project_Type f = "Bridge" -> ct_Project_Type g = "Bridge" ->
  indicators (predict_input_data f) = [0; 0; 0; 0]%Q /\
  indicators (cost_input_data g) = [0; 0; 0; 0]%Q /\
  indicators (time_input_data g) = [0; 0; 0; 0]%Q.
Proof.
  intros Hf Hg.
  rewrite indicators_predict, indicators_cost, indicators_time, Hf, Hg.
  repeat split; reflexivity.
Qed.

(** C5: a project type outside {Building, Power Plant, Road, Water Infra}
    is encoded like "Bridge": same indicator block, and the same vectors
    for each model when the other fields are fixed. *)
Theorem C5_unknown_type_as_reference (s : string) :
  s ∉ PROJECT_TYPES_ENCODED ->
  project_type_encoded s = project_type_encoded "Bridge" /\
  (forall f, predict_input_data (with_project_type s f) =
             predict_input_data (with_project_type "Bridge" f)) /\
  (forall g, cost_input_data (ct_with_project_type s g) =
             cost_input_data (ct_with_project_type "Bridge" g)) /\
  (forall g, time_input_data (ct_with_project_type s g) =
             time_input_data (ct_with_project_type "Bridge" g)).
Proof.
  intros Hs.
  assert (E : project_type_encoded s = project_type_encoded "Bridge").
  { rewrite (project_type_encoded_unknown s Hs). reflexivity. }
  split; [exact E |].
  split; [| split]; intros; unfold predict_input_data, cost_input_data,
    time_input_data; simpl; rewrite E; reflexivity.
Qed.

(** ** The prediction service *)

Ltac unfold_M :=
  repeat progress (unfold mbind, M_bind, mret, M_ret, lift, gets, getattr,
    raise, catch_attribute_error, map_M in *; cbn beta iota zeta in *).

Lemma py_max2_cases a b : py_max2 a b = a \/ py_max2 a b = b.
Proof. unfold py_max2. destruct (Qlt_le_dec a b); auto. Qed.

Lemma fold_py_max2_in (rest : list Q) (x : Q) :
  In (fold_left py_max2 rest x) (x :: rest).
Proof.
  revert x. induction rest as [| y rest IH]; intros x; simpl; [auto |].
  destruct (IH (py_max2 x y)) as [H | H].
  - destruct (py_max2_cases x y) as [E | E]; rewrite <- H, E; auto.
  - auto.
Qed.

Lemma py_max_in (xs : list Q) (c : Q) : py_max xs = Ok c -> In c xs.
Proof.
  destruct xs as [| x rest]; simpl; intros H; [discriminate |].
  injection H as <-. apply fold_py_max2_in.
Qed.

Lemma make_frame_ok cols (x : list Q) :
  length x = length cols -> make_frame cols x = Ok (zip cols x).
Proof. intros H. unfold make_frame. rewrite H, Nat.eqb_refl. reflexivity. Qed.

Lemma run_call_pure (c : ServiceCall) (w : World) : snd (run_call c w) = w.
Proof.
  destruct c; simpl; unfold predict_feasibility, get_prediction_confidence,
    predict_cost, predict_time; unfold_M; repeat case_match; simplify_eq; done.
Qed.

Lemma run_calls_map (cs : list ServiceCall) (w : World) :
  run_calls cs w = (map (fun c => fst (run_call c w)) cs, w).
Proof.
  induction cs as [| c cs IH]; simpl; [reflexivity |].
  pose proof (run_call_pure c w) as Hp.
  destruct (run_call c w) as [r w1] eqn:E. simpl in Hp. subst w1.
  rewrite IH. reflexivity.
Qed.

(** C6: the confidence is in [0, 1] whenever the model's probability
    estimates are; without [predict_proba] the [AttributeError] is caught
    and the value returned is exactly 0.85 (and it is returned for every
    12-field vector). *)
Theorem C6_confidence_bounds_and_fallback :
  (forall (x : list Q) (w w' : World) (c : Q),
     proba_in_unit (feasibility_model (store w)) ->
     get_prediction_confidence x w = (Ok c, w') -> (0 <= c <= 1)%Q) /\
  (forall (x : list Q) (w w' : World) (c : Q),
     clf_predict_proba (feasibility_model (store w)) = None ->
     get_prediction_confidence x w = (Ok c, w') -> c = 0.85%Q) /\
  (forall (x : list Q) (w : World),
     clf_predict_proba (feasibility_model (store w)) = None ->
     length x = length FEATURE_NAMES ->
     get_prediction_confidence x w = (Ok 0.85%Q, w)).
Proof.
  split; [| split].
  - intros x w w' c Hunit H. unfold get_prediction_confidence in H. unfold_M.
    destruct (make_frame FEATURE_NAMES x) as [df | e]; [| destruct e; simplify_eq; lra].
    destruct (clf_predict_proba (feasibility_model (store w))) as [f |] eqn:Ef;
      [| simplify_eq; lra].
    destruct (f df) as [ps | e] eqn:Efd; [| destruct e; simplify_eq; lra].
    destruct (py_max ps) as [c' | e] eqn:Em; [| destruct e; simplify_eq; lra].
    simplify_eq. apply py_max_in in Em.
    specialize (Hunit f Ef df ps Efd). rewrite List.Forall_forall in Hunit.
    exact (Hunit c Em).
  - intros x w w' c Hnone H. unfold get_prediction_confidence in H. unfold_M.
    rewrite Hnone in H.
    destruct (make_frame FEATURE_NAMES x) as [df | []]; simplify_eq; reflexivity.
  - intros x w Hnone Hlen. unfold get_prediction_confidence. unfold_M.
    rewrite Hnone, (make_frame_ok _ _ Hlen). reflexivity.
Qed.

(** C7: the four service functions leave the process state unchanged, so
    a sequence of calls answers each call as if it ran first, and two
    identical calls anywhere in the sequence get identical results. *)
Theorem C7_service_deterministic (cs : list ServiceCall) (w : World) :
  run_calls cs w = (map (fun c => fst (run_call c w)) cs, w) /\
  (forall c, snd (run_call c w) = w) /\
  (forall i j c, cs !! i = Some c -> cs !! j = Some c ->
     fst (run_calls cs w) !! i = fst (run_calls cs w) !! j).
Proof.
  split; [apply run_calls_map | split; [intros; apply run_call_pure |]].
  intros i j c Hi Hj. rewrite run_calls_map. simpl.
  rewrite !list_lookup_fmap, Hi, Hj. reflexivity.
Qed.

(** ** Visualisation *)

(** The needle value of the gauge, [min(max(risk_score / 10, 0), 1)]:
    NaN passes through, the infinities go to the ends, a finite score is
    clamped to [0, 1]. *)
Lemma gauge_clamp (r : pyfloat) :
  let s := pf_min2 (pf_max2 (pf_div r 10) (PNum 0)) (PNum 1) in
  (r = PNaN -> s = PNaN) /\
  (forall q, r = PNum q ->
     exists s', s = PNum s' /\ (0 <= s' <= 1)%Q /\
       ((0 <= q / 10 <= 1)%Q -> s' = (q / 10)%Q) /\
       ((q / 10 < 0)%Q -> s' = 0%Q) /\ ((1 < q / 10)%Q -> s' = 1%Q)) /\
  (r = PInf -> s = PNum 1) /\ (r = NInf -> s = PNum 0).
Proof.
  simpl. split; [intros ->; reflexivity |].
  split; [| split; intros ->; reflexivity].
  intros q ->. unfold pf_min2, pf_max2, pf_div, pf_lt.
  destruct (Qlt_le_dec (q / 10) 0) as [H0 | H0].
  - destruct (Qlt_le_dec 1 0); [lra |].
    eexists; split; [reflexivity |].
    repeat split; intros; first [reflexivity | lra | exfalso; lra].
  - destruct (Qlt_le_dec 1 (q / 10)) as [H1 | H1];
      eexists; (split; [reflexivity |]);
      repeat split; intros; first [reflexivity | lra | exfalso; lra].
Qed.

(** A successful [generate_all_visualizations] is four [savefig] calls in
    order; the gauge gets the clamped fourth entry of [input_data]. *)
Lemma generate_all_visualizations_ok m names input_data label w w' :
  generate_all_visualizations m names input_data label w = (Ok tt, w') ->
  exists i1 i2 i4 r,
    input_data !! 3 = Some r /\
    w' = {| store := store w;
            files := <[distribution_chart_png := i4]>
                     (<[gauge_chart_png :=
                         GaugeChart (pf_min2 (pf_max2 (pf_div r 10) (PNum 0)) (PNum 1))
                           label]>
                     (<[radar_chart_png := i2]>
                     (<[feature_importance_png := i1]> (files w)))) |}.
Proof.
  unfold generate_all_visualizations, generate_feature_importance,
    generate_radar_chart, generate_gauge_chart, generate_distribution_chart,
    savefig, py_index.
  unfold_M. intros H.
  repeat (case_match; simplify_eq; try discriminate).
  do 4 eexists. split; [first [eassumption | reflexivity] | reflexivity].
Qed.

(** C8: a successful [generate_all_visualizations] writes exactly the four
    chart files (creating or overwriting them), leaves everything else as
    it was and returns nothing; an error it raises is not caught by
    [predict], which fails with that same error. *)
Theorem C8_four_chart_files :
  (forall m names input_data label (w w' : World) (u : unit),
     generate_all_visualizations m names input_data label w = (Ok u, w') ->
     u = tt /\ store w' = store w /\
     exists i1 i2 i3 i4,
       files w' = <[distribution_chart_png := i4]>
                  (<[gauge_chart_png := i3]>
                  (<[radar_chart_png := i2]>
                  (<[feature_importance_png := i1]> (files w))))) /\
  (forall f (w w1 w2 w3 : World) k c label e,
     predict_feasibility (predict_input_data f) w = (Ok k, w1) ->
     get_prediction_confidence (predict_input_data f) w1 = (Ok c, w2) ->
     label_lookup k = Ok label ->
     generate_all_visualizations (model (store w2)) FEATURES
       (map PNum (predict_input_data f)) label w2 = (Err e, w3) ->
     predict f w = (Err e, w3)).
Proof.
  split.
  - intros m names input_data label w w' [] H.
    destruct (generate_all_visualizations_ok _ _ _ _ _ _ H)
      as (i1 & i2 & i4 & r & _ & ->).
    split; [reflexivity | split; [reflexivity |]].
    do 4 eexists. reflexivity.
  - intros f w w1 w2 w3 k c label e H1 H2 H3 H4.
    unfold predict. unfold_M.
    rewrite H1, H2, H3. unfold_M. rewrite H4. reflexivity.
Qed.

(** C9: [label_map] sends 0, 1, 2 to "Not Feasible", "Feasible",
    "Borderline" and raises [KeyError] for any other class index, so
    [predict] fails for such a prediction: with [KeyError] when the
    confidence was computed, with the confidence's own error otherwise. *)
Theorem C9_label_map_keyerror :
  label_lookup 0 = Ok "Not Feasible" /\ label_lookup 1 = Ok "Feasible" /\
  label_lookup 2 = Ok "Borderline" /\
  (forall k : Z, k ∉ [0; 1; 2]%Z -> label_lookup k = Err (KeyError k)) /\
  (forall f (w w1 : World) k,
     predict_feasibility (predict_input_data f) w = (Ok k, w1) ->
     k ∉ [0; 1; 2]%Z ->
     (exists e w', predict f w = (Err e, w')) /\
     (forall c w2, get_prediction_confidence (predict_input_data f) w1 = (Ok c, w2) ->
        predict f w = (Err (KeyError k), w2))).
Proof.
  assert (Hk : forall k : Z, k ∉ [0; 1; 2]%Z -> label_lookup k = Err (KeyError k)).
  { intros k Hk. unfold label_lookup, label_map.
    rewrite not_elem_of_list_to_map_1; [reflexivity | exact Hk]. }
  split; [reflexivity |]. split; [reflexivity |]. split; [reflexivity |].
  split; [exact Hk |].
  intros f w w1 k H1 Hnk.
  split.
  - unfold predict. unfold_M. rewrite H1.
    destruct (get_prediction_confidence (predict_input_data f) w1) as [[c | e] w2].
    + unfold_M. rewrite (Hk k Hnk). eauto.
    + eauto.
  - intros c w2 H2. unfold predict. unfold_M. rewrite H1, H2.
    unfold_M. rewrite (Hk k Hnk). reflexivity.
Qed.

(** C10 (the code misses NaN): the clamp [min(max(risk_score / 10, 0), 1)]
    that is meant to normalise the Risk Assessment Score to [0, 1] lets NaN
    through, since every comparison with NaN is false; on the road vector
    with a NaN risk score [generate_all_visualizations] succeeds and writes
    the gauge with a needle value that is NaN, not a value in [0, 1]. *)
Theorem C10_gauge_nan_needle :
  fst (generate_all_visualizations (demo_classifier 1) FEATURES nan_risk_input
         "Feasible" (demo_world 1)) = Ok tt /\
  files (snd (generate_all_visualizations (demo_classifier 1) FEATURES nan_risk_input
                "Feasible" (demo_world 1))) !! gauge_chart_png =
    Some (GaugeChart PNaN "Feasible") /\
  ~ (exists s', PNaN = PNum s' /\ (0 <= s' <= 1)%Q).
Proof.
  split; [vm_compute; reflexivity |].
  split; [vm_compute; reflexivity |].
  intros (s' & Hs & _). discriminate.
Qed.

(** ** Witnesses: the theorems at concrete inputs *)

Lemma C2_witness :
  ~ (inject_Z (ct_Scope_Complexity_Numeric bridge_ct_form) ==
     ct_Resource_Allocation_Score bridge_ct_form)%Q /\
  cost_input_data bridge_ct_form <> time_input_data bridge_ct_form.
Proof.
  assert (Hne : ~ (inject_Z (ct_Scope_Complexity_Numeric bridge_ct_form) ==
                   ct_Resource_Allocation_Score bridge_ct_form)%Q)
    by (vm_compute; discriminate).
  split; [exact Hne |].
  exact (proj2 (proj2 (C2_cost_time_orders_differ bridge_ct_form)) Hne).
Defined.

Lemma C4_witness :
  Project_Type bridge_form = "Bridge" /\ ct_Project_Type bridge_ct_form = "Bridge" /\
  indicators (predict_input_data bridge_form) = [0; 0; 0; 0]%Q /\
  indicators (cost_input_data bridge_ct_form) = [0; 0; 0; 0]%Q /\
  indicators (time_input_data bridge_ct_form) = [0; 0; 0; 0]%Q.
Proof.
  split; [reflexivity |]. split; [reflexivity |].
  apply (C4_bridge_all_zero bridge_form bridge_ct_form); reflexivity.
Defined.

Lemma C5_witness :
  ("Tunnel" ∉ PROJECT_TYPES_ENCODED) /\
  predict_input_data (with_project_type "Tunnel" road_form) =
  predict_input_data (with_project_type "Bridge" road_form).
Proof.
  assert (Hs : "Tunnel" ∉ PROJECT_TYPES_ENCODED) by (apply (bool_decide_unpack ("Tunnel" ∉ PROJECT_TYPES_ENCODED)); vm_compute; exact I).
  split; [exact Hs |].
  exact (proj1 (proj2 (C5_unknown_type_as_reference "Tunnel" Hs)) road_form).
Defined.

Lemma C6_witness :
  get_prediction_confidence (predict_input_data road_form) (demo_world 1) =
    (Ok 0.7%Q, demo_world 1) /\ (0 <= 0.7 <= 1)%Q /\
  get_prediction_confidence (predict_input_data road_form) no_proba_world =
    (Ok 0.85%Q, no_proba_world).
Proof.
  assert (Hunit : proba_in_unit (feasibility_model (store (demo_world 1)))).
  { intros f Hf df ps Hps. simpl in Hf. injection Hf as <-. injection Hps as <-.
    repeat constructor; vm_compute; discriminate. }
  assert (H1 : get_prediction_confidence (predict_input_data road_form)
                 (demo_world 1) = (Ok 0.7%Q, demo_world 1))
    by reflexivity.
  split; [exact H1 |]. split.
  - exact (proj1 C6_confidence_bounds_and_fallback _ _ _ _ Hunit H1).
  - apply (proj2 (proj2 C6_confidence_bounds_and_fallback)); reflexivity.
Defined.

Lemma C7_witness :
  fst (run_calls repeated_calls (demo_world 1)) !! 0 =
  fst (run_calls repeated_calls (demo_world 1)) !! 2.
Proof.
  apply (proj2 (proj2 (C7_service_deterministic repeated_calls (demo_world 1)))
           0 2 (CallCost (cost_input_data bridge_ct_form))); reflexivity.
Defined.

Lemma C8_witness :
  (store (snd (generate_all_visualizations (model (demo_store 1)) FEATURES
                 (map PNum (predict_input_data road_form)) "Feasible" (demo_world 1))) =
   demo_store 1) /\
  predict road_form no_importance_world = (Err AttributeError, no_importance_world).
Proof.
  split.
  - apply (proj1 C8_four_chart_files (model (demo_store 1)) FEATURES
             (map PNum (predict_input_data road_form)) "Feasible" (demo_world 1) _ tt).
    vm_compute. reflexivity.
  - apply (proj2 C8_four_chart_files road_form no_importance_world
             no_importance_world no_importance_world no_importance_world
             1%Z 0.7%Q "Feasible" AttributeError);
      reflexivity.
Defined.

Lemma C9_witness :
  predict road_form (demo_world 5) = (Err (KeyError 5), demo_world 5).
Proof.
  assert (Hk : 5%Z ∉ [0; 1; 2]%Z)
    by (apply (bool_decide_unpack (5%Z ∉ [0; 1; 2]%Z)); vm_compute; exact I).
  assert (H1 : predict_feasibility (predict_input_data road_form) (demo_world 5)
               = (Ok 5%Z, demo_world 5)) by reflexivity.
  apply (proj2 (proj2 (proj2 (proj2 (proj2 C9_label_map_keyerror)))
           road_form (demo_world 5) (demo_world 5) 5%Z H1 Hk) 0.7%Q).
  reflexivity.
Defined.

(** ** Further properties of the service *)

Lemma fold_py_max2_ge (rest : list Q) (x : Q) :
  (x <= fold_left py_max2 rest x)%Q /\
  (forall p, In p rest -> p <= fold_left py_max2 rest x)%Q.
Proof.
  revert x. induction rest as [| y rest IH]; intros x; simpl.
  - split; [apply Qle_refl | tauto].
  - destruct (IH (py_max2 x y)) as [H1 H2].
    assert (Hx : (x <= py_max2 x y)%Q /\ (y <= py_max2 x y)%Q).
    { unfold py_max2. destruct (Qlt_le_dec x y); split; lra. }
    split; [lra |].
    intros p [<- | Hp]; [lra | auto].
Qed.

(** A vector whose length differs from the model's column list makes
    [pd.DataFrame] raise [ValueError] in every service function; in
    [get_prediction_confidence] it is not the caught [AttributeError], so no
    0.85 is returned, with or without [predict_proba]. *)
Theorem service_wrong_length_value_error (x : list Q) (w : World) :
  (length x <> length FEATURE_NAMES ->
   predict_feasibility x w = (Err ValueError, w) /\
   get_prediction_confidence x w = (Err ValueError, w)) /\
  (length x <> length COST_FEATURE_NAMES ->
   predict_cost x w = (Err ValueError, w)) /\
  (length x <> length TIME_FEATURE_NAMES ->
   predict_time x w = (Err ValueError, w)).
Proof.
  assert (Hmf : forall cols, length x <> length cols ->
            make_frame cols x = Err ValueError).
  { intros cols H. unfold make_frame.
    destruct (Nat.eqb_spec (length x) (length cols)); [contradiction | reflexivity]. }
  split; [| split]; intros H.
  - unfold predict_feasibility, get_prediction_confidence. unfold_M.
    rewrite (Hmf _ H). split; reflexivity.
  - unfold predict_cost. unfold_M. rewrite (Hmf _ H). reflexivity.
  - unfold predict_time. unfold_M. rewrite (Hmf _ H). reflexivity.
Qed.

(** With [predict_proba] present, the confidence is the largest of the
    class probabilities for the row; an empty probability list makes
    [max] raise [ValueError], which is not caught. *)
Theorem confidence_is_max_probability (x : list Q) (w w' : World) (c : Q)
    (g : frame -> result (list Q)) :
  clf_predict_proba (feasibility_model (store w)) = Some g ->
  (forall ps, g (zip FEATURE_NAMES x) = Ok ps ->
   get_prediction_confidence x w = (Ok c, w') ->
   w' = w /\ In c ps /\ forall p, In p ps -> (p <= c)%Q) /\
  (length x = length FEATURE_NAMES -> g (zip FEATURE_NAMES x) = Ok [] ->
   get_prediction_confidence x w = (Err ValueError, w)).
Proof.
  intros Hg. split.
  - intros ps Hps H. unfold get_prediction_confidence, make_frame in H. unfold_M.
    rewrite Hg in H.
    destruct (Nat.eqb (length x) (length FEATURE_NAMES)); [| simplify_eq].
    unfold_M. rewrite Hps in H.
    destruct ps as [| p0 rest]; simpl in H; [simplify_eq |].
    injection H as <- <-. split; [reflexivity |]. split.
    + apply fold_py_max2_in.
    + destruct (fold_py_max2_ge rest p0) as [H1 H2].
      intros p [<- | Hp]; auto.
  - intros Hlen Hnil. unfold get_prediction_confidence. unfold_M.
    rewrite (make_frame_ok _ _ Hlen), Hg. unfold_M. rewrite Hnil. reflexivity.
Qed.

(** The feasibility model receives each form field under its own column
    name of [FEATURE_NAMES]: the order of main.py's vector and the column
    list of model.py agree, the frame is always built, and
    [predict_feasibility] returns exactly the model's answer (its class, or
    the error it raises) without touching the state. *)
Theorem feasibility_columns_aligned (f : FeasibilityForm) (w : World) :
  predict_feasibility (predict_input_data f) w =
  (clf_predict (feasibility_model (store w))
     [ ("Estimated_Cost_USD", Estimated_Cost_USD f);
       ("Time_Estimate_Days", inject_Z (Time_Estimate_Days f));
       ("Resource_Allocation_Score", Resource_Allocation_Score f);
       ("Risk_Assessment_Score", Risk_Assessment_Score f);
       ("Environmental_Impact_Score", Environmental_Impact_Score f);
       ("Historical_Cost_Deviation_%", Historical_Cost_Deviation_ f);
       ("Stakeholder_Priority_Score", Stakeholder_Priority_Score f);
       ("Scope_Complexity_Numeric", inject_Z (Scope_Complexity_Numeric f));
       ("Project_Type_Building", if String.eqb "Building" (Project_Type f) then 1 else 0);
       ("Project_Type_Power Plant", if String.eqb "Power Plant" (Project_Type f) then 1 else 0);
       ("Project_Type_Road", if String.eqb "Road" (Project_Type f) then 1 else 0);
       ("Project_Type_Water Infra", if String.eqb "Water Infra" (Project_Type f) then 1 else 0)
     ]%Q, w).
Proof. reflexivity. Qed.

(** The cost model receives each field under its own column name of
    [COST_FEATURE_NAMES], complexity first; the frame is always built, so
    the cost route returns exactly the model's answer (its value, or the
    error it raises) and leaves the state unchanged. *)
Theorem cost_route_columns_aligned (f : CostTimeForm) (w : World) :
  predict_cost_route f w =
  (reg_predict (cost_model (store w))
     [ ("Scope_Complexity_Numeric", inject_Z (ct_Scope_Complexity_Numeric f));
       ("Resource_Allocation_Score", ct_Resource_Allocation_Score f);
       ("Risk_Assessment_Score", ct_Risk_Assessment_Score f);
       ("Environmental_Impact_Score", ct_Environmental_Impact_Score f);
       ("Historical_Cost_Deviation_%", ct_Historical_Cost_Deviation_ f);
       ("Stakeholder_Priority_Score", ct_Stakeholder_Priority_Score f);
       ("Project_Type_Building", if String.eqb "Building" (ct_Project_Type f) then 1 else 0);
       ("Project_Type_Power Plant", if String.eqb "Power Plant" (ct_Project_Type f) then 1 else 0);
       ("Project_Type_Road", if String.eqb "Road" (ct_Project_Type f) then 1 else 0);
       ("Project_Type_Water Infra", if String.eqb "Water Infra" (ct_Project_Type f) then 1 else 0)
     ]%Q, w).
Proof. reflexivity. Qed.

(** The time model receives each field under its own column name of
    [TIME_FEATURE_NAMES], complexity after the five scores; the frame is
    always built, so the time route returns exactly the model's answer (its
    value, or the error it raises) and leaves the state unchanged. *)
Theorem time_route_columns_aligned (f : CostTimeForm) (w : World) :
  predict_time_route f w =
  (reg_predict (time_model (store w))
     [ ("Resource_Allocation_Score", ct_Resource_Allocation_Score f);
       ("Risk_Assessment_Score", ct_Risk_Assessment_Score f);
       ("Environmental_Impact_Score", ct_Environmental_Impact_Score f);
       ("Historical_Cost_Deviation_%", ct_Historical_Cost_Deviation_ f);
       ("Stakeholder_Priority_Score", ct_Stakeholder_Priority_Score f);
       ("Scope_Complexity_Numeric", inject_Z (ct_Scope_Complexity_Numeric f));
       ("Project_Type_Building", if String.eqb "Building" (ct_Project_Type f) then 1 else 0);
       ("Project_Type_Power Plant", if String.eqb "Power Plant" (ct_Project_Type f) then 1 else 0);
       ("Project_Type_Road", if String.eqb "Road" (ct_Project_Type f) then 1 else 0);
       ("Project_Type_Water Infra", if String.eqb "Water Infra" (ct_Project_Type f) then 1 else 0)
     ]%Q, w).
Proof. reflexivity. Qed.

(** Indicator [i] is 1 exactly when the project type is the [i]-th name of
    [PROJECT_TYPES_ENCODED]; so the indicator block determines an encoded
    project type. *)
Theorem one_hot_position (s : string) (i : nat) :
  (project_type_encoded s !! i = Some 1%Q <-> PROJECT_TYPES_ENCODED !! i = Some s) /\
  (forall s', s ∈ PROJECT_TYPES_ENCODED ->
     project_type_encoded s' = project_type_encoded s -> s' = s).
Proof.
  assert (Hpos : forall s i, project_type_encoded s !! i = Some 1%Q <->
                   PROJECT_TYPES_ENCODED !! i = Some s).
  { clear s i. intros s i. unfold project_type_encoded.
    rewrite list_lookup_fmap.
    destruct (PROJECT_TYPES_ENCODED !! i) as [pt |]; simpl; [| split; discriminate].
    destruct (String.eqb_spec pt s) as [-> | Hne]; [tauto |].
    split; [intros H; injection H as H; discriminate | intros H; injection H as ->; tauto]. }
  split; [apply Hpos |].
  intros s' Hin Henc.
  apply list_elem_of_lookup in Hin as [j Hj].
  pose proof (proj2 (Hpos s j) Hj) as H1.
  rewrite <- Henc in H1. apply Hpos in H1. congruence.
Qed.

(** ** The feature-importance chart *)

Section Argsort.
Variable key : nat -> Q.

Let R (a b : nat) : Prop := (key a <= key b)%Q.

Lemma insert_by_key_perm i l : insert_by_key key i l ≡ₚ i :: l.
Proof.
  induction l as [| j l IH]; simpl; [reflexivity |].
  destruct (Qlt_le_dec (key i) (key j)); [reflexivity |].
  rewrite IH. apply perm_swap.
Qed.

Lemma insert_by_key_hd j i l :
  HdRel R j l -> R j i -> HdRel R j (insert_by_key key i l).
Proof.
  intros Hl Hji. destruct l as [| k l]; simpl; [constructor; exact Hji |].
  destruct (Qlt_le_dec (key i) (key k)); constructor; [exact Hji |].
  inversion Hl; assumption.
Qed.

Lemma insert_by_key_sorted i l : Sorted R l -> Sorted R (insert_by_key key i l).
Proof.
  induction l as [| j l IH]; intros Hs; simpl; [repeat constructor |].
  destruct (Qlt_le_dec (key i) (key j)) as [Hlt | Hle].
  - constructor; [exact Hs | constructor; unfold R; lra].
  - inversion Hs as [| ? ? Hs' Hhd]; subst.
    constructor; [apply IH, Hs' |].
    apply insert_by_key_hd; [exact Hhd | exact Hle].
Qed.

Lemma fold_insert_perm xs acc :
  fold_left (fun acc i => insert_by_key key i acc) xs acc ≡ₚ xs ++ acc.
Proof.
  revert acc. induction xs as [| x xs IH]; intros acc; simpl; [reflexivity |].
  rewrite IH, insert_by_key_perm. symmetry. apply Permutation_middle.
Qed.

Lemma fold_insert_sorted xs acc :
  Sorted R acc -> Sorted R (fold_left (fun acc i => insert_by_key key i acc) xs acc).
Proof.
  revert acc. induction xs as [| x xs IH]; intros acc Hs; simpl; [exact Hs |].
  apply IH, insert_by_key_sorted, Hs.
Qed.

Lemma sorted_map_key l : Sorted R l -> Sorted Qle (map key l).
Proof.
  induction 1 as [| a l Hs IH Hhd]; simpl; constructor; [exact IH |].
  destruct Hhd; simpl; constructor; assumption.
Qed.
End Argsort.

Lemma map_result_py_index {A} (names : list A) (idx : list nat) :
  (forall ys, map_result (py_index names) idx = Ok ys ->
     Forall (fun i => i < length names) idx /\
     Forall2 (fun i y => names !! i = Some y) idx ys) /\
  (Forall (fun i => i < length names) idx ->
     exists ys, map_result (py_index names) idx = Ok ys) /\
  (forall e, map_result (py_index names) idx = Err e -> e = IndexError).
Proof.
  induction idx as [| i idx IH]; simpl.
  - split; [intros ys H; injection H as <-; split; constructor |].
    split; [eauto | intros; discriminate].
  - destruct IH as (IH1 & IH2 & IH3).
    destruct (py_index names i) as [y | e0] eqn:Ei;
      unfold py_index in Ei; destruct (names !! i) as [y' |] eqn:Ei';
      try discriminate Ei.
    + injection Ei as <-.
      destruct (map_result (py_index names) idx) as [ys | e] eqn:Er.
      * destruct (IH1 ys eq_refl) as [Hf1 Hf2].
        split; [intros ys' H; injection H as <-; split; constructor; auto;
                apply lookup_lt_Some in Ei'; exact Ei' |].
        split; [eauto | intros; discriminate].
      * split; [intros; discriminate |].
        split; [intros Hf; inversion Hf; subst; destruct (IH2 H2); congruence
               | intros e' H; injection H as <-; auto].
    + injection Ei as <-.
      split; [intros; discriminate |].
      split; [intros Hf; inversion Hf; subst; apply lookup_ge_None in Ei'; lia
             | intros e H; injection H as <-; reflexivity].
Qed.

Lemma zip_map_same {A B} (f : nat -> A) (g : nat -> B) (l : list nat) :
  zip (map f l) (map g l) = map (fun i => (f i, g i)) l.
Proof. induction l; simpl; f_equal; auto. Qed.

Lemma map_nth_seq_zip {A B} (l1 : list A) (l2 : list B) d1 d2 :
  length l2 <= length l1 ->
  map (fun i => (nth i l1 d1, nth i l2 d2)) (seq 0 (length l2)) = zip l1 l2.
Proof.
  revert l1. induction l2 as [| b l2 IH]; intros l1 Hlen; simpl;
    [destruct l1; reflexivity |].
  destruct l1 as [| a l1]; simpl in Hlen; [lia |]. simpl.
  f_equal. rewrite <- seq_shift, map_map. apply IH. lia.
Qed.

Lemma argsort_perm_sorted (imp : list Q) :
  argsort imp ≡ₚ seq 0 (length imp) /\
  Sorted (fun a b => nth a imp 0 <= nth b imp 0)%Q (argsort imp).
Proof.
  unfold argsort. split.
  - rewrite fold_insert_perm, app_nil_r. reflexivity.
  - apply fold_insert_sorted. constructor.
Qed.

Lemma forall2_lookup_map {A} (names : list A) (d : A) idx ys :
  Forall2 (fun i y => names !! i = Some y) idx ys ->
  ys = map (fun i => nth i names d) idx.
Proof.
  induction 1 as [| i y idx ys Hy _ IH]; simpl; [reflexivity |].
  f_equal; [symmetry; apply nth_lookup_Some with (d := d) in Hy; exact Hy | exact IH].
Qed.

(** [generate_feature_importance] with [feature_importances_] no longer
    than [feature_names]: it writes [feature_importance.png] only, with the
    bars in ascending order of importance, each feature paired with its own
    importance and every feature of the model drawn once. *)
Theorem feature_importance_sorted_bars (m : Classifier) (names : list string)
    (imp : list Q) (w : World) :
  clf_feature_importances m = Some imp -> length imp <= length names ->
  exists bars,
    generate_feature_importance m names w =
      (Ok tt, {| store := store w;
                 files := <[feature_importance_png := FeatureImportanceChart bars]>
                            (files w) |}) /\
    Sorted Qle (map snd bars) /\
    bars ≡ₚ zip names imp.
Proof.
  intros Himp Hlen.
  destruct (argsort_perm_sorted imp) as [Hperm Hsorted].
  assert (Hin : Forall (fun i => i < length names) (argsort imp)).
  { apply List.Forall_forall. intros i Hi.
    apply (Permutation_in _ Hperm), in_seq in Hi. lia. }
  destruct (map_result_py_index names (argsort imp)) as (H1 & H2 & _).
  destruct (H2 Hin) as [ys Hys].
  destruct (H1 ys Hys) as [_ Hf2].
  apply (forall2_lookup_map names "") in Hf2.
  exists (map (fun i => (nth i names "", nth i imp 0%Q)) (argsort imp)).
  split; [| split].
  - unfold generate_feature_importance, savefig. unfold_M.
    rewrite Himp. unfold_M. rewrite Hys. unfold_M.
    rewrite Hf2, zip_map_same. reflexivity.
  - rewrite map_map. simpl.
    exact (sorted_map_key (fun i => nth i imp 0%Q) _ Hsorted).
  - rewrite Hperm, (map_nth_seq_zip names imp "" 0%Q Hlen). reflexivity.
Qed.

(** [generate_feature_importance] raises [AttributeError] for a model
    without [feature_importances_] and [IndexError] when it has more
    importances than [feature_names]; no file is written in either case. *)
Theorem feature_importance_errors (m : Classifier) (names : list string) (w : World) :
  (clf_feature_importances m = None ->
   generate_feature_importance m names w = (Err AttributeError, w)) /\
  (forall imp, clf_feature_importances m = Some imp -> length names < length imp ->
   generate_feature_importance m names w = (Err IndexError, w)).
Proof.
  split.
  - intros H. unfold generate_feature_importance. unfold_M. rewrite H. reflexivity.
  - intros imp H Hlt. unfold generate_feature_importance. unfold_M. rewrite H. unfold_M.
    destruct (map_result_py_index names (argsort imp)) as (H1 & _ & H3).
    destruct (map_result (py_index names) (argsort imp)) as [ys | e] eqn:E.
    + exfalso. destruct (H1 ys eq_refl) as [Hf _].
      destruct (argsort_perm_sorted imp) as [Hperm _].
      assert (Hn : In (length names) (argsort imp)).
      { apply (Permutation_in _ (Permutation_sym Hperm)), in_seq. lia. }
      rewrite List.Forall_forall in Hf. specialize (Hf _ Hn). lia.
    + rewrite (H3 e eq_refl). reflexivity.
Qed.

(** ** Radar and distribution charts *)


Lemma length_zip_min {A B} (x : list A) (l : list B) :
  length (zip x l) = min (length x) (length l).
Proof.
  revert l. induction x as [| a x IH]; intros [| b l]; simpl; auto.
Qed.







(** ** Composition: the chart steps and the feasibility handler *)

Lemma gfi_ok m names imp w :
  clf_feature_importances m = Some imp -> length imp <= length names ->
  exists img, generate_feature_importance m names w =
    (Ok tt, {| store := store w; files := <[feature_importance_png := img]> (files w) |}).
Proof.
  intros Himp Hlen.
  destruct (argsort_perm_sorted imp) as [Hperm _].
  assert (Hin : Forall (fun i => i < length names) (argsort imp)).
  { apply List.Forall_forall. intros i Hi.
    apply (Permutation_in _ Hperm), in_seq in Hi. lia. }
  destruct (proj1 (proj2 (map_result_py_index names (argsort imp))) Hin) as [ys Hys].
  unfold generate_feature_importance, savefig. unfold_M.
  rewrite Himp. unfold_M. rewrite Hys. unfold_M. eauto.
Qed.



Lemma radar_step x names w :
  (length x < 8 -> generate_radar_chart x names w = (Err ValueError, w)) /\
  (8 <= length x -> exists img, generate_radar_chart x names w =
    (Ok tt, {| store := store w; files := <[radar_chart_png := img]> (files w) |})).
Proof.
  unfold generate_radar_chart, savefig, raise.
  rewrite length_map, length_zip_min. change (length radar_max_vals) with 8.
  split; intros H; destruct (Nat.eqb_spec (min (length x) 8) 8);
    try lia; eauto.
Qed.

Lemma distribution_step x names w :
  8 <= length x -> exists img, generate_distribution_chart x names w =
    (Ok tt, {| store := store w;
               files := <[distribution_chart_png := img]> (files w) |}).
Proof.
  intros H. unfold generate_distribution_chart, savefig, raise.
  rewrite length_map, length_zip_min. change (length distribution_max_vals) with 8.
  replace (Nat.eqb (min (length x) 8) 8) with true
    by (symmetry; apply Nat.eqb_eq; lia).
  simpl. eauto.
Qed.

Lemma generate_all_ok_long m names imp x label w :
  clf_feature_importances m = Some imp -> length imp <= length names ->
  8 <= length x ->
  exists i1 i2 i3 i4,
    generate_all_visualizations m names x label w =
      (Ok tt, {| store := store w;
                 files := <[distribution_chart_png := i4]>
                          (<[gauge_chart_png := i3]>
                          (<[radar_chart_png := i2]>
                          (<[feature_importance_png := i1]> (files w)))) |}).
Proof.
  intros Himp Hlen Hx.
  destruct (gfi_ok m names imp w Himp Hlen) as [i1 H1].
  set (w1 := {| store := store w;
                files := <[feature_importance_png := i1]> (files w) |}) in H1.
  destruct (proj2 (radar_step x names w1) Hx) as [i2 H2].
  set (w2 := {| store := store w1;
                files := <[radar_chart_png := i2]> (files w1) |}) in H2.
  destruct (lookup_lt_is_Some_2 x 3 ltac:(lia)) as [r Hr].
  set (w3 := {| store := store w2;
                files := <[gauge_chart_png :=
                   GaugeChart (pf_min2 (pf_max2 (pf_div r 10) (PNum 0)) (PNum 1)) label]> (files w2) |}).
  destruct (distribution_step x names w3 Hx) as [i4 H4].
  exists i1, i2, (GaugeChart (pf_min2 (pf_max2 (pf_div r 10) (PNum 0)) (PNum 1)) label), i4.
  unfold generate_all_visualizations. unfold_M.
  rewrite H1. unfold_M. rewrite H2. unfold_M. unfold py_index. rewrite Hr.
  unfold_M. unfold generate_gauge_chart, savefig at 1. unfold_M.
  fold w3. rewrite H4. reflexivity.
Qed.


(** The gauge chart depends on [input_data] only through its fourth entry,
    the Risk Assessment Score [r], and on the result label: after a
    successful [generate_all_visualizations] the gauge file holds the label
    and a needle value that is [r / 10] clamped to [0, 1] for a finite [r],
    1 for +inf, 0 for -inf, and NaN for a NaN [r]. *)
Theorem gauge_needle_from_risk_score m names input_data label (w w' : World) :
  generate_all_visualizations m names input_data label w = (Ok tt, w') ->
  exists r s,
    input_data !! 3 = Some r /\
    files w' !! gauge_chart_png = Some (GaugeChart s label) /\
    (r = PNaN -> s = PNaN) /\
    (forall q, r = PNum q ->
       exists s', s = PNum s' /\ (0 <= s' <= 1)%Q /\
         ((0 <= q / 10 <= 1)%Q -> s' = (q / 10)%Q) /\
         ((q / 10 < 0)%Q -> s' = 0%Q) /\ ((1 < q / 10)%Q -> s' = 1%Q)) /\
    (r = PInf -> s = PNum 1) /\ (r = NInf -> s = PNum 0).
Proof.
  intros H.
  destruct (generate_all_visualizations_ok _ _ _ _ _ _ H)
    as (i1 & i2 & i4 & r & Hr & ->).
  exists r, (pf_min2 (pf_max2 (pf_div r 10) (PNum 0)) (PNum 1)).
  split; [exact Hr |]. split.
  - simpl. rewrite lookup_insert_ne by (unfold distribution_chart_png, gauge_chart_png; congruence).
    apply lookup_insert_eq.
  - apply gauge_clamp.
Qed.

Lemma predict_feasibility_len x w :
  length x = length FEATURE_NAMES ->
  predict_feasibility x w =
    (clf_predict (feasibility_model (store w)) (zip FEATURE_NAMES x), w).
Proof.
  intros H. unfold predict_feasibility. unfold_M. rewrite (make_frame_ok _ _ H).
  reflexivity.
Qed.

Lemma confidence_ok_len x w :
  length x = length FEATURE_NAMES ->
  (forall g, clf_predict_proba (feasibility_model (store w)) = Some g ->
     exists ps, g (zip FEATURE_NAMES x) = Ok ps /\ ps <> []) ->
  exists c, get_prediction_confidence x w = (Ok c, w).
Proof.
  intros Hlen Hne. unfold get_prediction_confidence. unfold_M.
  rewrite (make_frame_ok _ _ Hlen).
  destruct (clf_predict_proba (feasibility_model (store w))) as [g |] eqn:Eg;
    [| eauto].
  destruct (Hne g eq_refl) as [ps [Hps Hnil]]. unfold_M. rewrite Hps.
  destruct ps as [| p rest]; [congruence | simpl; eauto].
Qed.

(** [predict] succeeds when the classifier returns class 0, 1 or 2, its
    [predict_proba] (if it has one) returns a non-empty probability list,
    and main.py's [model] has at most 12 feature importances: the page
    shows one of the three labels, the models are untouched and exactly the
    four chart files are written. Without [feature_importances_] the same
    request fails with [AttributeError]. *)
Theorem predict_success_conditions (f : FeasibilityForm) (w : World) (k : Z) :
  let x := predict_input_data f in
  clf_predict (feasibility_model (store w)) (zip FEATURE_NAMES x) = Ok k ->
  (k = 0 \/ k = 1 \/ k = 2)%Z ->
  (forall g, clf_predict_proba (feasibility_model (store w)) = Some g ->
     exists ps, g (zip FEATURE_NAMES x) = Ok ps /\ ps <> []) ->
  (forall imp, clf_feature_importances (model (store w)) = Some imp ->
   length imp <= 12 ->
   exists r w',
     predict f w = (Ok r, w') /\
     resp_result r ∈ ["Not Feasible"; "Feasible"; "Borderline"] /\
     store w' = store w /\
     exists i1 i2 i3 i4,
       files w' = <[distribution_chart_png := i4]>
                  (<[gauge_chart_png := i3]>
                  (<[radar_chart_png := i2]>
                  (<[feature_importance_png := i1]> (files w))))) /\
  (clf_feature_importances (model (store w)) = None ->
   predict f w = (Err AttributeError, w)).
Proof.
  intros x Hpk Hk Hne.
  assert (Hlen : length x = length FEATURE_NAMES) by reflexivity.
  destruct (confidence_ok_len x w Hlen Hne) as [c Hc].
  assert (Hl : exists label, label_lookup k = Ok label /\
                 label ∈ ["Not Feasible"; "Feasible"; "Borderline"]).
  { destruct Hk as [-> | [-> | ->]]; eexists; (split; [reflexivity |]);
      repeat constructor. }
  destruct Hl as [label [Hl Hin]].
  split.
  - intros imp Himp Hi.
    destruct (generate_all_ok_long (model (store w)) FEATURES imp (map PNum x) label w
                Himp Hi ltac:(rewrite length_map, Hlen; simpl; lia))
      as (i1 & i2 & i3 & i4 & Hg).
    eexists _, _. split.
    + unfold predict. fold x. unfold_M.
      rewrite (predict_feasibility_len x w Hlen), Hpk, Hc. unfold_M.
      rewrite Hl. unfold_M. rewrite Hg. unfold_M. reflexivity.
    + split; [exact Hin |]. split; [reflexivity |]. eauto.
  - intros Hnone. unfold predict. fold x. unfold_M.
    rewrite (predict_feasibility_len x w Hlen), Hpk, Hc. unfold_M.
    rewrite Hl. unfold_M. unfold generate_all_visualizations. unfold_M.
    unfold generate_feature_importance. unfold_M. rewrite Hnone. reflexivity.
Qed.

(** ** Witnesses of the further properties *)

Lemma service_wrong_length_value_error_witness :
  (predict_feasibility short_input (demo_world 1) = (Err ValueError, demo_world 1) /\
   get_prediction_confidence short_input (demo_world 1) = (Err ValueError, demo_world 1)) /\
  predict_cost short_input (demo_world 1) = (Err ValueError, demo_world 1) /\
  predict_time short_input (demo_world 1) = (Err ValueError, demo_world 1).
Proof.
  destruct (service_wrong_length_value_error short_input (demo_world 1))
    as (H1 & H2 & H3).
  split; [apply H1 | split; [apply H2 | apply H3]]; vm_compute; discriminate.
Defined.

Lemma confidence_is_max_probability_witness :
  (demo_world 1 = demo_world 1 /\
   In 0.7%Q [0.1; 0.7; 0.2]%Q /\
   forall p, In p [0.1; 0.7; 0.2]%Q -> (p <= 0.7)%Q) /\
  get_prediction_confidence (predict_input_data road_form) empty_proba_world =
    (Err ValueError, empty_proba_world).
Proof.
  split.
  - apply (proj1 (confidence_is_max_probability (predict_input_data road_form)
            (demo_world 1) (demo_world 1) 0.7%Q (fun _ => Ok [0.1; 0.7; 0.2]%Q)
            eq_refl)); reflexivity.
  - apply (proj2 (confidence_is_max_probability (predict_input_data road_form)
            empty_proba_world empty_proba_world 0%Q (fun _ => Ok []) eq_refl));
      reflexivity.
Defined.

Lemma one_hot_position_witness :
  project_type_encoded "Road" !! 2 = Some 1%Q /\ "Road" = "Road".
Proof.
  split.
  - apply (proj2 (proj1 (one_hot_position "Road" 2))). reflexivity.
  - apply (proj2 (one_hot_position "Road" 2) "Road"); [apply (bool_decide_unpack ("Road" ∈ PROJECT_TYPES_ENCODED)); vm_compute; exact I | reflexivity].
Defined.

Lemma feature_importance_sorted_bars_witness :
  exists bars,
    generate_feature_importance (demo_classifier 1) FEATURES (demo_world 1) =
      (Ok tt, {| store := store (demo_world 1);
                 files := <[feature_importance_png := FeatureImportanceChart bars]>
                            (files (demo_world 1)) |}) /\
    Sorted Qle (map snd bars) /\
    bars ≡ₚ zip FEATURES
      [0.2; 0.1; 0.05; 0.15; 0.05; 0.1; 0.05; 0.1; 0.05; 0.05; 0.05; 0.05]%Q.
Proof.
  apply feature_importance_sorted_bars; [reflexivity | simpl; lia].
Defined.

Lemma feature_importance_errors_witness :
  generate_feature_importance no_proba_classifier FEATURES (demo_world 1) =
    (Err AttributeError, demo_world 1) /\
  generate_feature_importance (demo_classifier 1) ["Estimated_Cost_USD"] (demo_world 1) =
    (Err IndexError, demo_world 1).
Proof.
  split.
  - apply (proj1 (feature_importance_errors no_proba_classifier FEATURES (demo_world 1))).
    reflexivity.
  - apply (proj2 (feature_importance_errors (demo_classifier 1) ["Estimated_Cost_USD"]
             (demo_world 1))
             [0.2; 0.1; 0.05; 0.15; 0.05; 0.1; 0.05; 0.1; 0.05; 0.05; 0.05; 0.05]%Q);
      [reflexivity | simpl; lia].
Defined.




Lemma predict_success_conditions_witness :
  exists r w',
    predict road_form (demo_world 1) = (Ok r, w') /\
    resp_result r ∈ ["Not Feasible"; "Feasible"; "Borderline"] /\
    store w' = store (demo_world 1) /\
    exists i1 i2 i3 i4,
      files w' = <[distribution_chart_png := i4]>
                 (<[gauge_chart_png := i3]>
                 (<[radar_chart_png := i2]>
                 (<[feature_importance_png := i1]> (files (demo_world 1))))).
Proof.
  apply (proj1 (predict_success_conditions road_form (demo_world 1) 1%Z
                  eq_refl (or_intror (or_introl eq_refl))
                  (fun g Hg => ltac:(simpl in Hg; injection Hg as <-;
                                     eexists; split; [reflexivity | discriminate])))
           [0.2; 0.1; 0.05; 0.15; 0.05; 0.1; 0.05; 0.1; 0.05; 0.05; 0.05; 0.05]%Q);
    [reflexivity | simpl; lia].
Defined.

Lemma gauge_needle_from_risk_score_witness :
  exists r s,
    map PNum (predict_input_data road_form) !! 3 = Some r /\
    files (snd (generate_all_visualizations (model (demo_store 1)) FEATURES
                  (map PNum (predict_input_data road_form)) "Feasible" (demo_world 1)))
      !! gauge_chart_png = Some (GaugeChart s "Feasible") /\
    (r = PNaN -> s = PNaN) /\
    (forall q, r = PNum q ->
       exists s', s = PNum s' /\ (0 <= s' <= 1)%Q /\
         ((0 <= q / 10 <= 1)%Q -> s' = (q / 10)%Q) /\
         ((q / 10 < 0)%Q -> s' = 0%Q) /\ ((1 < q / 10)%Q -> s' = 1%Q)) /\
    (r = PInf -> s = PNum 1) /\ (r = NInf -> s = PNum 0).
Proof.
  apply (gauge_needle_from_risk_score (model (demo_store 1)) FEATURES
           (map PNum (predict_input_data road_form)) "Feasible" (demo_world 1)).
  vm_compute. reflexivity.
Defined.
